(** * Operator dispatch of pandas/core/ops/dispatch.py

    A shallow embedding of the four functions of the module
    ([should_extension_dispatch], [should_series_dispatch],
    [dispatch_to_extension_op], [maybe_dispatch_ufunc_to_dunder_op]) and the
    properties of their routing decisions. *)

From Stdlib Require Import ZArith String Ascii List Bool.
From stdpp Require Import base gmap strings list.

Local Open Scope string_scope.

(** ** Python values *)

(** A class, identified by its name, together with the names of its proper
    ancestors (the tail of its [__mro__]). *)
Record PyType := { tp_name : string; tp_bases : list string }.

Definition issubclass (c t : PyType) : bool :=
  bool_decide (tp_name c = tp_name t) || bool_decide (tp_name t ∈ tp_bases c).

Definition object_t : PyType := {| tp_name := "object"; tp_bases := [] |}.
Definition NoneType : PyType := {| tp_name := "NoneType"; tp_bases := ["object"] |}.
Definition NotImplementedType : PyType :=
  {| tp_name := "NotImplementedType"; tp_bases := ["object"] |}.
Definition int_t : PyType := {| tp_name := "int"; tp_bases := ["object"] |}.
Definition str_t : PyType := {| tp_name := "str"; tp_bases := ["object"] |}.
Definition dtype_t : PyType := {| tp_name := "dtype"; tp_bases := ["object"] |}.
Definition ndarray : PyType := {| tp_name := "ndarray"; tp_bases := ["object"] |}.

(** Exception classes. [NullFrequencyError] derives from [ValueError]
    (pandas.errors). *)
Definition IndexError : PyType :=
  {| tp_name := "IndexError";
     tp_bases := ["LookupError"; "Exception"; "BaseException"; "object"] |}.
Definition TypeError : PyType :=
  {| tp_name := "TypeError"; tp_bases := ["Exception"; "BaseException"; "object"] |}.
Definition ValueError : PyType :=
  {| tp_name := "ValueError"; tp_bases := ["Exception"; "BaseException"; "object"] |}.
Definition NullFrequencyError : PyType :=
  {| tp_name := "NullFrequencyError";
     tp_bases := ["ValueError"; "Exception"; "BaseException"; "object"] |}.

(** A raised exception: its class and its message. *)
Record PyErr := { exc_type : PyType; exc_msg : string }.

(** Outcome of evaluating a Python expression: a value or a raised
    exception. *)
Inductive result (A : Type) : Type :=
| Return (a : A)
| Raise (e : PyErr).
Arguments Return {A} a.
Arguments Raise {A} e.

#[global] Instance result_ret : MRet result := fun A a => Return a.
#[global] Instance result_bind : MBind result := fun A B k r =>
  match r with
  | Return a => k a
  | Raise e => Raise e
  end.

(** A dtype descriptor. numpy's [kind] is always a single character code
    (['m'] timedelta64, ['M'] datetime64, ['i'] integer, ['O'] object, ...). *)
Record Dtype := { kind : ascii; dtype_name : string; is_extension : bool }.

(** An array-like object (ndarray, ExtensionArray, Series): its class, its
    dtype and its values. *)
Record ArrayLike := { ob_type : PyType; dtype : Dtype; values : list Z }.

Inductive PyObj : Type :=
| PyNone
| PyNotImplemented
| PyInt (n : Z)
| PyStr (s : string)
| PyDtype (d : Dtype)
| PyArr (a : ArrayLike).

(** [type(o)] *)
Definition type_of (o : PyObj) : PyType :=
  match o with
  | PyNone => NoneType
  | PyNotImplemented => NotImplementedType
  | PyInt _ => int_t
  | PyStr _ => str_t
  | PyDtype _ => dtype_t
  | PyArr a => ob_type a
  end.

(** [isinstance(o, t)] *)
Definition isinstance (o : PyObj) (t : PyType) : bool :=
  issubclass (type_of o) t.

(** [o is None] *)
Definition is_None (o : PyObj) : bool :=
  match o with PyNone => true | _ => false end.

(** A callable with a [__name__] (a binary operator or a NumPy ufunc). *)
Record Callable := {
  __name__ : string;
  __call__ : ArrayLike → PyObj → result PyObj
}.

(** A DataFrame, as far as dispatch looks at it: the [_is_mixed_type] flag
    and the columns, each a label with its dtype. *)
Record DataFrame := {
  _is_mixed_type : bool;
  _data : list (string * Dtype)
}.

Definition columns (df : DataFrame) : list string := (_data df).*1.
Definition dtypes (df : DataFrame) : list Dtype := (_data df).*2.

(** [l.iloc[i]] / [l[i]]: positional indexing, raising IndexError out of
    range. *)
Definition index_error : PyErr :=
  {| exc_type := IndexError; exc_msg := "index out of range" |}.

Definition getitem {A} (l : list A) (i : nat) : result A :=
  match l !! i with
  | Some x => Return x
  | None => Raise index_error
  end.

(** Truth value of an integer: [bool(n)]. *)
Definition truth (n : nat) : bool := negb (Nat.eqb n 0).

(** [c in s] for a one-character string [c]. *)
Definition char_in (c : ascii) (s : string) : bool :=
  existsb (Ascii.eqb c) (list_ascii_of_string s).

(** [d.get(k, default)] on a dict *)
Definition dict_get {V} (d : gmap string V) (k : string) (default : V) : V :=
  match d !! k with
  | Some v => v
  | None => default
  end.

(** ** What dispatch.py imports

    The dtype predicates of pandas.core.dtypes.common and [array] of
    pandas.core.construction are taken as parameters, and so is attribute
    lookup on an array ([getattr] returns the bound method when the attribute
    exists). *)
Class Imports := {
  is_datetime64_dtype : PyObj → bool;
  is_extension_array_dtype : PyObj → bool;
  is_integer_dtype : PyObj → bool;
  is_object_dtype : PyObj → bool;
  is_scalar : PyObj → bool;
  is_timedelta64_dtype : PyObj → bool;
  array : ArrayLike → result ArrayLike;
  getattr : ArrayLike → string → option (PyObj → result PyObj)
}.

Section Dispatch.
Context `{Imports}.

(** dispatch.py, lines 24-48 *)
Definition should_extension_dispatch (left : ArrayLike) (right : PyObj) : bool :=
  if is_extension_array_dtype (PyDtype (dtype left))
     || is_datetime64_dtype (PyDtype (dtype left))
     || is_timedelta64_dtype (PyDtype (dtype left))
  then true
  else if negb (is_scalar right) && is_extension_array_dtype right
  then true
  else false.

(** dispatch.py, lines 51-86 *)
Definition should_series_dispatch (left right : DataFrame) (op : Callable)
  : result bool :=
  if _is_mixed_type left || _is_mixed_type right then Return true
  else if negb (truth (length (columns left)))
          || negb (truth (length (columns right)))
  then Return false
  else
    ldtype ← getitem (dtypes left) 0 ;
    rdtype ← getitem (dtypes right) 0 ;
    if (is_timedelta64_dtype (PyDtype ldtype) && is_integer_dtype (PyDtype rdtype))
       || (is_timedelta64_dtype (PyDtype rdtype) && is_integer_dtype (PyDtype ldtype))
    then Return true
    else if is_datetime64_dtype (PyDtype ldtype) && is_object_dtype (PyDtype rdtype)
    then Return true
    else Return false.

(** dispatch.py, lines 116-120: datetime64 and timedelta64 ndarrays are cast
    with [array]. *)
Definition cast_temporal_ndarray (left : ArrayLike) : result ArrayLike :=
  if char_in (kind (dtype left)) "mM" && isinstance (PyArr left) ndarray
  then array left
  else Return left.

(** dispatch.py, lines 125-138: the [try] statement around [op(left, right)]. *)
Definition try_op (op : Callable) (left : ArrayLike) (right : PyObj)
    (keep_null_freq : bool) : result PyObj :=
  match __call__ op left right with
  | Return res_values => Return res_values
  | Raise e =>
      if issubclass (exc_type e) NullFrequencyError then
        if keep_null_freq then Raise e
        else Raise {| exc_type := TypeError;
                      exc_msg := "incompatible type for a datetime/timedelta "
                                 ++ "operation [" ++ __name__ op ++ "]" |}
      else Raise e
  end.

(** dispatch.py, lines 89-138 *)
Definition dispatch_to_extension_op (op : Callable) (left : ArrayLike)
    (right : PyObj) (keep_null_freq : bool) : result PyObj :=
  left ← cast_temporal_ndarray left ;
  try_op op left right keep_null_freq.

(** dispatch.py, lines 165-207: the three tables. *)
Definition special : gset string :=
  {[ "add"; "sub"; "mul"; "pow"; "mod"; "floordiv"; "truediv"; "divmod";
     "eq"; "ne"; "lt"; "gt"; "le"; "ge"; "remainder"; "matmul" ]}.

Definition aliases : gmap string string :=
  {[ "subtract" := "sub";
     "multiply" := "mul";
     "floor_divide" := "floordiv";
     "true_divide" := "truediv";
     "power" := "pow";
     "remainder" := "mod";
     "divide" := "div";
     "equal" := "eq";
     "not_equal" := "ne";
     "less" := "lt";
     "less_equal" := "le";
     "greater" := "gt";
     "greater_equal" := "ge" ]}.

Definition flipped : gmap string string :=
  {[ "lt" := "__gt__";
     "le" := "__ge__";
     "gt" := "__lt__";
     "ge" := "__le__";
     "eq" := "__eq__";
     "ne" := "__ne__" ]}.

(** dispatch.py, lines 212-213 *)
Definition not_implemented (arg : PyObj) : result PyObj :=
  Return PyNotImplemented.

(** [getattr(self, name, default)] *)
Definition getattr_default (self : ArrayLike) (name : string)
    (default : PyObj → result PyObj) : PyObj → result PyObj :=
  match getattr self name with
  | Some m => m
  | None => default
  end.

(** dispatch.py, lines 141-223 *)
Definition maybe_dispatch_ufunc_to_dunder_op (self : ArrayLike)
    (ufunc : Callable) (method : string) (inputs : list PyObj)
    (kwargs : gmap string PyObj) : result PyObj :=
  let op_name := __name__ ufunc in
  let op_name := dict_get aliases op_name op_name in
  if bool_decide (method = "__call__")
     && bool_decide (op_name ∈ special)
     && is_None (dict_get kwargs "out" PyNone)
  then
    x0 ← getitem inputs 0 ;
    if isinstance x0 (ob_type self) then
      let name := "__" ++ op_name ++ "__" in
      x1 ← getitem inputs 1 ;
      getattr_default self name not_implemented x1
    else
      let name := dict_get flipped op_name ("__r" ++ op_name ++ "__") in
      x0 ← getitem inputs 0 ;
      getattr_default self name not_implemented x0
  else Return PyNotImplemented.

End Dispatch.

(** ** The reflected method name, as the specification words it

    For the six comparison operators the reflected method is read from the
    swap table [lt ↔ gt], [le ↔ ge], [eq ↔ eq], [ne ↔ ne]; for every other
    operator it is ["__r" + name + "__"]. *)
Definition reflected_method_spec (op_name : string) : string :=
  if decide (op_name = "lt") then "__gt__"
  else if decide (op_name = "le") then "__ge__"
  else if decide (op_name = "gt") then "__lt__"
  else if decide (op_name = "ge") then "__le__"
  else if decide (op_name = "eq") then "__eq__"
  else if decide (op_name = "ne") then "__ne__"
  else "__r" ++ op_name ++ "__".

(** ** A sample environment

    Modelled from the spec: pandas.core.dtypes.common (the [is_*_dtype]
    predicates and [is_scalar]), pandas.core.construction.array and the
    operator methods of the array classes are imported by dispatch.py and are
    not among the sources.  The sample follows the data model of the
    specification: a dtype has a storage-kind tag and an extension flag, a
    scalar naming a registered extension dtype counts as extension-like, and
    [array] turns a temporal ndarray into the specialised temporal array. *)
Module Sample.

Definition int64 : Dtype :=
  {| kind := "i"; dtype_name := "int64"; is_extension := false |}.
Definition object_ : Dtype :=
  {| kind := "O"; dtype_name := "object"; is_extension := false |}.
Definition timedelta64 : Dtype :=
  {| kind := "m"; dtype_name := "timedelta64[ns]"; is_extension := false |}.
Definition datetime64 : Dtype :=
  {| kind := "M"; dtype_name := "datetime64[ns]"; is_extension := false |}.
Definition category : Dtype :=
  {| kind := "O"; dtype_name := "category"; is_extension := true |}.

(** Names the dtype registry resolves to an extension dtype. *)
Definition registry : list string := ["category"; "Int64"].

Definition dtype_of (o : PyObj) : option Dtype :=
  match o with
  | PyDtype d => Some d
  | PyArr a => Some (dtype a)
  | _ => None
  end.

Definition has_kind (ks : string) (o : PyObj) : bool :=
  match dtype_of o with
  | Some d => negb (is_extension d) && char_in (kind d) ks
  | None => false
  end.

Definition extension_array_dtype (o : PyObj) : bool :=
  match o with
  | PyStr s => bool_decide (s ∈ registry)
  | _ => match dtype_of o with Some d => is_extension d | None => false end
  end.

Definition scalar (o : PyObj) : bool :=
  match o with
  | PyNone | PyInt _ | PyStr _ => true
  | _ => false
  end.

Definition Series : PyType := {| tp_name := "Series"; tp_bases := ["object"] |}.
Definition ExtensionArray : list string := ["ExtensionArray"; "object"].
Definition Categorical : PyType :=
  {| tp_name := "Categorical"; tp_bases := ExtensionArray |}.
Definition DatetimeArray : PyType :=
  {| tp_name := "DatetimeArray"; tp_bases := ExtensionArray |}.
Definition TimedeltaArray : PyType :=
  {| tp_name := "TimedeltaArray"; tp_bases := ExtensionArray |}.

Definition construct_array (a : ArrayLike) : result ArrayLike :=
  if Ascii.eqb (kind (dtype a)) "M"
  then Return {| ob_type := DatetimeArray; dtype := dtype a; values := values a |}
  else if Ascii.eqb (kind (dtype a)) "m"
  then Return {| ob_type := TimedeltaArray; dtype := dtype a; values := values a |}
  else Return a.

(** Two array classes, [Sub] deriving from [Base].  [Base] defines a few
    operator methods; calling one yields a string naming the method. *)
Definition Base : PyType := {| tp_name := "Base"; tp_bases := ["object"] |}.
Definition Sub : PyType := {| tp_name := "Sub"; tp_bases := ["Base"; "object"] |}.

Definition base_methods : list string := ["__add__"; "__eq__"; "__lt__"; "__gt__"].

Definition lookup_method (a : ArrayLike) (name : string) : option (PyObj → result PyObj) :=
  if issubclass (ob_type a) Base && bool_decide (name ∈ base_methods)
  then Some (fun _ => Return (PyStr name))
  else None.

Definition env : Imports := {|
  is_datetime64_dtype := has_kind "M";
  is_extension_array_dtype := extension_array_dtype;
  is_integer_dtype := has_kind "iu";
  is_object_dtype := has_kind "O";
  is_scalar := scalar;
  is_timedelta64_dtype := has_kind "m";
  array := construct_array;
  getattr := lookup_method
|}.

(** Sample values. *)
Definition int_series : ArrayLike :=
  {| ob_type := Series; dtype := int64; values := [1; 2; 3]%Z |}.
Definition td_series : ArrayLike :=
  {| ob_type := Series; dtype := timedelta64; values := [1; 2]%Z |}.
Definition cat_array : ArrayLike :=
  {| ob_type := Categorical; dtype := category; values := [0; 1; 0]%Z |}.
Definition td_ndarray : ArrayLike :=
  {| ob_type := ndarray; dtype := timedelta64; values := [10; 20]%Z |}.
Definition td_array : ArrayLike :=
  {| ob_type := TimedeltaArray; dtype := timedelta64; values := [10; 20]%Z |}.
Definition base_array : ArrayLike :=
  {| ob_type := Base; dtype := int64; values := [1; 2]%Z |}.
Definition sub_array : ArrayLike :=
  {| ob_type := Sub; dtype := int64; values := [3; 4]%Z |}.

Definition empty_frame : DataFrame :=
  {| _is_mixed_type := false; _data := [] |}.
Definition int_frame : DataFrame :=
  {| _is_mixed_type := false; _data := [("a", int64); ("b", int64)] |}.
Definition mixed_frame : DataFrame :=
  {| _is_mixed_type := true; _data := [("a", int64); ("b", object_)] |}.

(** An operator that always succeeds, and [add] on a temporal array without
    a frequency. *)
Definition first_operand : Callable :=
  {| __name__ := "first"; __call__ := fun l _ => Return (PyArr l) |}.
Definition null_freq_error : PyErr :=
  {| exc_type := NullFrequencyError; exc_msg := "Cannot shift with no freq" |}.
Definition add : Callable :=
  {| __name__ := "add";
     __call__ := fun l r =>
       match r with
       | PyInt _ => Raise null_freq_error
       | _ => Return (PyArr l)
       end |}.
Definition ufunc (name : string) : Callable :=
  {| __name__ := name; __call__ := fun l _ => Return (PyArr l) |}.

End Sample.

(** ** The ufunc names that reach an operator method

    The members of [special] and the keys of [aliases] other than "divide",
    written out: the names for which line 215 can hold. *)
Definition dispatched_ufunc_names : list string :=
  [ "add"; "sub"; "mul"; "pow"; "mod"; "floordiv"; "truediv"; "divmod";
    "eq"; "ne"; "lt"; "gt"; "le"; "ge"; "remainder"; "matmul";
    "subtract"; "multiply"; "floor_divide"; "true_divide"; "power";
    "equal"; "not_equal"; "less"; "less_equal"; "greater"; "greater_equal" ].

(** The sample environment with an [array] that fails on every input. *)
Definition failing_cast_env : Imports := {|
  is_datetime64_dtype := is_datetime64_dtype (Imports := Sample.env);
  is_extension_array_dtype := is_extension_array_dtype (Imports := Sample.env);
  is_integer_dtype := is_integer_dtype (Imports := Sample.env);
  is_object_dtype := is_object_dtype (Imports := Sample.env);
  is_scalar := is_scalar (Imports := Sample.env);
  is_timedelta64_dtype := is_timedelta64_dtype (Imports := Sample.env);
  array := λ _, Raise Sample.null_freq_error;
  getattr := getattr (Imports := Sample.env)
|}.

(** The sample environment with arrays that also answer to the names
    "__remainder__" and "__rremainder__". *)
Definition remainder_env : Imports := {|
  is_datetime64_dtype := is_datetime64_dtype (Imports := Sample.env);
  is_extension_array_dtype := is_extension_array_dtype (Imports := Sample.env);
  is_integer_dtype := is_integer_dtype (Imports := Sample.env);
  is_object_dtype := is_object_dtype (Imports := Sample.env);
  is_scalar := is_scalar (Imports := Sample.env);
  is_timedelta64_dtype := is_timedelta64_dtype (Imports := Sample.env);
  array := array (Imports := Sample.env);
  getattr := λ a name,
    if bool_decide (name ∈ ["__remainder__"; "__rremainder__"])
    then Some (λ _, Return (PyStr name))
    else getattr (Imports := Sample.env) a name
|}.

(** Membership in a set of string literals, by evaluation. *)
Local Ltac special_member := apply (bool_decide_unpack _); vm_compute; exact I.

(** ** Properties of the two predicates *)

Section PredicateProperties.
Context `{Imports}.

Lemma truth_length_zero {A} (l : list A) : length l = 0 → truth (length l) = false.
Proof. intros ->. reflexivity. Qed.

Lemma getitem_head {A} (x : A) (l : list A) : getitem (x :: l) 0 = Return x.
Proof. reflexivity. Qed.

(** X1: the frame predicate never raises: the column-count guard of line 69
    protects both reads of the first dtype (lines 73-74), for every pair of
    frames and whatever the dtype predicates answer. *)
Lemma should_series_dispatch_total (left right : DataFrame) (op : Callable) :
  ∃ b : bool, should_series_dispatch left right op = Return b.
Proof.
  unfold should_series_dispatch, columns, dtypes.
  destruct (_is_mixed_type left || _is_mixed_type right); [by eexists|].
  destruct (_data left) as [|[ln ld] lrest]; [by eexists|].
  destruct (_data right) as [|[rn rd] rrest]; [by eexists|].
  cbn.
  repeat match goal with |- context [if ?c then _ else _] => destruct c end;
    by eexists.
Qed.

(** C1, as amended: when either table has zero columns and neither table
    reports mixed column dtypes, [should_series_dispatch] returns false,
    whatever the operator. *)
Theorem should_series_dispatch_zero_columns (left right : DataFrame) (op : Callable) :
  length (columns left) = 0 ∨ length (columns right) = 0 →
  _is_mixed_type left = false →
  _is_mixed_type right = false →
  should_series_dispatch left right op = Return false.
Proof.
  intros Hzero Hl Hr. unfold should_series_dispatch. rewrite Hl, Hr. cbn [orb].
  destruct Hzero as [Hz|Hz]; rewrite (truth_length_zero _ Hz); cbn [negb orb].
  - reflexivity.
  - by rewrite orb_true_r.
Qed.

(** C7: when either table has mixed column dtypes, [should_series_dispatch]
    returns true; the column count and the first-column dtypes are not
    looked at. *)
Theorem should_series_dispatch_mixed (left right : DataFrame) (op : Callable) :
  _is_mixed_type left = true ∨ _is_mixed_type right = true →
  should_series_dispatch left right op = Return true.
Proof.
  intros [Hm|Hm]; unfold should_series_dispatch; rewrite Hm.
  - reflexivity.
  - by rewrite orb_true_r.
Qed.

(** C2: a left operand whose dtype is an extension dtype, datetime64 or
    timedelta64 is dispatched, whatever the right operand. *)
Theorem should_extension_dispatch_left (left : ArrayLike) (right : PyObj) :
  is_extension_array_dtype (PyDtype (dtype left)) = true
  ∨ is_datetime64_dtype (PyDtype (dtype left)) = true
  ∨ is_timedelta64_dtype (PyDtype (dtype left)) = true →
  should_extension_dispatch left right = true.
Proof.
  intros Hleft. unfold should_extension_dispatch.
  destruct Hleft as [-> | [-> | ->]]; cbn [orb]; rewrite ?orb_true_r;
    reflexivity.
Qed.

(** C3: for a left operand of native dtype (not extension, not datetime64,
    not timedelta64) a scalar right operand is never dispatched, also when
    [is_extension_array_dtype] accepts it, and a non-scalar right operand of
    extension dtype always is. *)
Theorem should_extension_dispatch_native_left (left : ArrayLike) (right : PyObj) :
  is_extension_array_dtype (PyDtype (dtype left)) = false →
  is_datetime64_dtype (PyDtype (dtype left)) = false →
  is_timedelta64_dtype (PyDtype (dtype left)) = false →
  (is_scalar right = true → should_extension_dispatch left right = false)
  ∧ (is_scalar right = false → is_extension_array_dtype right = true →
     should_extension_dispatch left right = true).
Proof.
  intros He Hd Ht. unfold should_extension_dispatch.
  rewrite He, Hd, Ht. cbn [orb]. split.
  - intros ->. reflexivity.
  - intros -> ->. reflexivity.
Qed.

End PredicateProperties.

(** ** Properties of the extension-operator bridge *)

Section ExtensionOpProperties.
Context `{Imports}.

Lemma char_in_mM (c : ascii) :
  char_in c "mM" = true ↔ c = "m"%char ∨ c = "M"%char.
Proof.
  unfold char_in. cbn [list_ascii_of_string existsb].
  rewrite orb_false_r, orb_true_iff, !Ascii.eqb_eq. reflexivity.
Qed.

(** When [op] returns, the bridge returns its result as it is. *)
Lemma try_op_return (op : Callable) (left : ArrayLike) (right v : PyObj)
    (keep_null_freq : bool) :
  __call__ op left right = Return v →
  try_op op left right keep_null_freq = Return v.
Proof. intros Hcall. unfold try_op. by rewrite Hcall. Qed.

(** C5: when [op], invoked on the operand the bridge passes to it, raises a
    null-frequency error, the bridge raises a TypeError whose message is
    "incompatible type for a datetime/timedelta operation [name]" for
    [keep_null_freq] false and re-raises the same error for [keep_null_freq]
    true; an exception of any other class propagates unchanged. *)
Theorem dispatch_to_extension_op_errors (op : Callable) (left passed : ArrayLike)
    (right : PyObj) (keep_null_freq : bool) (e : PyErr) :
  cast_temporal_ndarray left = Return passed →
  __call__ op passed right = Raise e →
  (issubclass (exc_type e) NullFrequencyError = true →
     keep_null_freq = false →
     dispatch_to_extension_op op left right keep_null_freq
     = Raise {| exc_type := TypeError;
                exc_msg := "incompatible type for a datetime/timedelta operation ["
                           ++ __name__ op ++ "]" |})
  ∧ (issubclass (exc_type e) NullFrequencyError = true →
     keep_null_freq = true →
     dispatch_to_extension_op op left right keep_null_freq = Raise e)
  ∧ (issubclass (exc_type e) NullFrequencyError = false →
     dispatch_to_extension_op op left right keep_null_freq = Raise e).
Proof.
  intros Hcast Hcall. unfold dispatch_to_extension_op. rewrite Hcast.
  change (Return passed ≫= _) with (try_op op passed right keep_null_freq).
  unfold try_op. rewrite Hcall.
  repeat split.
  - intros -> ->. reflexivity.
  - intros -> ->. reflexivity.
  - intros ->. reflexivity.
Qed.

(** C8: exactly when [left] is an ndarray whose kind is datetime64 (['M']) or
    timedelta64 (['m']), it is [array left] that [op] is called on; every
    other [left] is the operand [op] is called on, as it is.  The outcome of
    the bridge is the outcome of that call of [op], a NullFrequencyError
    being replaced by the TypeError unless [keep_null_freq] is set. *)
Theorem dispatch_to_extension_op_cast (op : Callable) (left : ArrayLike)
    (right : PyObj) (keep_null_freq : bool) :
  let temporal_ndarray :=
    isinstance (PyArr left) ndarray = true
    ∧ (kind (dtype left) = "m"%char ∨ kind (dtype left) = "M"%char) in
  let called_on := λ passed : ArrayLike,
    match __call__ op passed right with
    | Return res_values => Return res_values
    | Raise e =>
        if issubclass (exc_type e) NullFrequencyError && negb keep_null_freq
        then Raise {| exc_type := TypeError;
                      exc_msg := "incompatible type for a datetime/timedelta operation ["
                                 ++ __name__ op ++ "]" |}
        else Raise e
    end in
  (temporal_ndarray →
     dispatch_to_extension_op op left right keep_null_freq
     = array left ≫= called_on)
  ∧ (¬ temporal_ndarray →
     dispatch_to_extension_op op left right keep_null_freq
     = called_on left).
Proof.
  cbv zeta.
  assert (Htry : ∀ passed, try_op op passed right keep_null_freq
    = match __call__ op passed right with
      | Return res_values => Return res_values
      | Raise e =>
          if issubclass (exc_type e) NullFrequencyError && negb keep_null_freq
          then Raise {| exc_type := TypeError;
                        exc_msg := "incompatible type for a datetime/timedelta operation ["
                                   ++ __name__ op ++ "]" |}
          else Raise e
      end).
  { intros passed. unfold try_op.
    destruct (__call__ op passed right) as [v|e]; [reflexivity|].
    destruct (issubclass (exc_type e) NullFrequencyError), keep_null_freq;
      reflexivity. }
  unfold dispatch_to_extension_op, cast_temporal_ndarray. split.
  - intros [Hnd Hkind]. apply char_in_mM in Hkind. rewrite Hkind, Hnd.
    cbn [andb]. destruct (array left) as [cast|e]; [|reflexivity].
    apply Htry.
  - intros Hnot.
    destruct (char_in (kind (dtype left)) "mM") eqn:Hkind;
      destruct (isinstance (PyArr left) ndarray) eqn:Hnd;
      try apply Htry.
    exfalso. apply Hnot. split; [reflexivity|]. by apply char_in_mM.
Qed.

End ExtensionOpProperties.

(** ** Properties of the ufunc bridge *)

(** The code's lookup in [flipped], with the synthesized name as default,
    agrees with the specification's description of the reflected method. *)
Lemma flipped_get_spec (op_name : string) :
  dict_get flipped op_name ("__r" ++ op_name ++ "__")
  = reflected_method_spec op_name.
Proof.
  unfold dict_get, flipped, reflected_method_spec.
  repeat (case_decide;
          [ subst op_name; reflexivity
          | rewrite ?lookup_insert_ne, ?lookup_singleton_ne by congruence ]).
  reflexivity.
Qed.

(** Resolution of the ufunc names of the alias table, and of a supported
    name that has no alias. *)
Lemma aliases_divide : dict_get aliases "divide" "divide" = "div".
Proof. vm_compute. reflexivity. Qed.

Lemma div_not_special : "div" ∉ special.
Proof. apply (bool_decide_unpack _). vm_compute. exact I. Qed.

Section UfuncBridgeProperties.
Context `{Imports}.

(** [isinstance] accepts an object of exactly the class asked for. *)
Lemma isinstance_same_type (o : PyObj) (t : PyType) :
  type_of o = t → isinstance o t = true.
Proof.
  intros <-. unfold isinstance, issubclass.
  by rewrite bool_decide_true.
Qed.

Lemma out_is_None (kwargs : gmap string PyObj) :
  (∀ v, kwargs !! "out" = Some v → v = PyNone) →
  is_None (dict_get kwargs "out" PyNone) = true.
Proof.
  intros Hout. unfold dict_get.
  destruct (kwargs !! "out") as [v|] eqn:Hv; [|reflexivity].
  by rewrite (Hout v).
Qed.

(** The condition of line 215 holds on an eligible invocation. *)
Lemma eligible_condition (ufunc : Callable) (method : string)
    (kwargs : gmap string PyObj) :
  method = "__call__" →
  dict_get aliases (__name__ ufunc) (__name__ ufunc) ∈ special →
  (∀ v, kwargs !! "out" = Some v → v = PyNone) →
  bool_decide (method = "__call__")
  && bool_decide (dict_get aliases (__name__ ufunc) (__name__ ufunc) ∈ special)
  && is_None (dict_get kwargs "out" PyNone) = true.
Proof.
  intros Hm Hs Hout.
  by rewrite !bool_decide_true, out_is_None.
Qed.

(** C4, as amended: on an eligible invocation with two positional inputs,
    when the first input is an instance of [type(self)] (of that class or of
    a subclass) the result is the forward method "__name__" of [self] applied
    to the second input; otherwise it is the reflected method (swap table for
    the six comparisons, "__rname__" for the others) applied to the first
    input; a method [self] does not have yields [NotImplemented]. *)
Theorem maybe_dispatch_operand_order (self : ArrayLike) (ufunc : Callable)
    (method : string) (x0 x1 : PyObj) (rest : list PyObj)
    (kwargs : gmap string PyObj) :
  let op_name := dict_get aliases (__name__ ufunc) (__name__ ufunc) in
  let r := maybe_dispatch_ufunc_to_dunder_op self ufunc method
             (x0 :: x1 :: rest) kwargs in
  method = "__call__" →
  op_name ∈ special →
  (∀ v, kwargs !! "out" = Some v → v = PyNone) →
  (isinstance x0 (ob_type self) = true →
     match getattr self ("__" ++ op_name ++ "__") with
     | Some m => r = m x1
     | None => r = Return PyNotImplemented
     end)
  ∧ (isinstance x0 (ob_type self) = false →
     match getattr self (reflected_method_spec op_name) with
     | Some m => r = m x0
     | None => r = Return PyNotImplemented
     end).
Proof.
  cbv zeta. intros Hm Hs Hout.
  unfold maybe_dispatch_ufunc_to_dunder_op. cbv zeta.
  rewrite (eligible_condition ufunc method kwargs Hm Hs Hout).
  rewrite getitem_head. cbn [mbind result_bind].
  split; intros Hinst; rewrite Hinst.
  - unfold getattr_default.
    destruct (getattr self _); reflexivity.
  - rewrite flipped_get_spec. unfold getattr_default.
    destruct (getattr self _); reflexivity.
Qed.

(** C6: a non-null [out] in [kwargs], or a [method] other than "__call__",
    yields [NotImplemented], whatever the ufunc and the inputs. *)
Theorem maybe_dispatch_not_handled (self : ArrayLike) (ufunc : Callable)
    (method : string) (inputs : list PyObj) (kwargs : gmap string PyObj) :
  (∃ v, kwargs !! "out" = Some v ∧ v ≠ PyNone) ∨ method ≠ "__call__" →
  maybe_dispatch_ufunc_to_dunder_op self ufunc method inputs kwargs
  = Return PyNotImplemented.
Proof.
  intros Hgate. unfold maybe_dispatch_ufunc_to_dunder_op. cbv zeta.
  destruct Hgate as [(v & Hv & Hnone) | Hm].
  - replace (dict_get kwargs "out" PyNone) with v
      by (unfold dict_get; by rewrite Hv).
    destruct v; try congruence; cbn [is_None]; by rewrite andb_false_r.
  - by rewrite (bool_decide_false _ Hm).
Qed.

(** C9: a ufunc named "divide" is never dispatched: its alias "div" is not
    in [special]. *)
Theorem maybe_dispatch_divide (self : ArrayLike) (ufunc : Callable)
    (method : string) (inputs : list PyObj) (kwargs : gmap string PyObj) :
  __name__ ufunc = "divide" →
  maybe_dispatch_ufunc_to_dunder_op self ufunc method inputs kwargs
  = Return PyNotImplemented.
Proof.
  intros Hname. unfold maybe_dispatch_ufunc_to_dunder_op. cbv zeta.
  rewrite Hname, aliases_divide.
  rewrite (bool_decide_false _ div_not_special).
  by rewrite andb_false_r.
Qed.

(** C10, as amended: on an eligible invocation (plain call, supported
    name, no non-null [out]) the function reads the first input, and the second one only when the first is an instance of
    [type(self)]; no other input is read.  With no input the call raises
    IndexError; with one input it raises IndexError when that input is an
    instance of [type(self)], and otherwise applies the reflected method to
    it. *)
Theorem maybe_dispatch_inputs_read (self : ArrayLike) (ufunc : Callable)
    (method : string) (kwargs : gmap string PyObj) :
  let op_name := dict_get aliases (__name__ ufunc) (__name__ ufunc) in
  let run := λ inputs,
    maybe_dispatch_ufunc_to_dunder_op self ufunc method inputs kwargs in
  method = "__call__" →
  op_name ∈ special →
  (∀ v, kwargs !! "out" = Some v → v = PyNone) →
  run [] = Raise index_error
  ∧ (∀ x0, isinstance x0 (ob_type self) = true →
       run [x0] = Raise index_error)
  ∧ (∀ x0 rest, isinstance x0 (ob_type self) = false →
       run (x0 :: rest)
       = getattr_default self (reflected_method_spec op_name) not_implemented x0)
  ∧ (∀ x0 x1 rest, run (x0 :: x1 :: rest) = run [x0; x1]).
Proof.
  cbv zeta. intros Hm Hs Hout.
  unfold maybe_dispatch_ufunc_to_dunder_op. cbv zeta.
  rewrite (eligible_condition ufunc method kwargs Hm Hs Hout).
  repeat split.
  - intros x0 Hinst. rewrite getitem_head. cbn [mbind result_bind].
    by rewrite Hinst.
  - intros x0 rest Hinst. rewrite getitem_head. cbn [mbind result_bind].
    by rewrite Hinst, flipped_get_spec.
Qed.

End UfuncBridgeProperties.

(** ** The properties at sample inputs *)

(** C1 as first stated fails: an empty left table against a right table of
    mixed dtypes is dispatched per column. *)
Lemma should_series_dispatch_zero_columns_cex :
  length (columns Sample.empty_frame) = 0
  ∧ should_series_dispatch (H := Sample.env)
      Sample.empty_frame Sample.mixed_frame Sample.add = Return true
  ∧ should_series_dispatch (H := Sample.env)
      Sample.empty_frame Sample.mixed_frame Sample.add ≠ Return false.
Proof. repeat split. discriminate. Qed.

Lemma should_series_dispatch_zero_columns_witness :
  length (columns Sample.empty_frame) = 0
  ∧ should_series_dispatch (H := Sample.env)
      Sample.empty_frame Sample.int_frame Sample.add = Return false.
Proof.
  split; [reflexivity|].
  apply (should_series_dispatch_zero_columns (H := Sample.env));
    [left; reflexivity | reflexivity | reflexivity].
Defined.

Lemma should_series_dispatch_mixed_witness :
  should_series_dispatch (H := Sample.env)
    Sample.int_frame Sample.mixed_frame Sample.add = Return true.
Proof.
  apply (should_series_dispatch_mixed (H := Sample.env)).
  right. reflexivity.
Defined.

Lemma should_extension_dispatch_left_witness :
  should_extension_dispatch (H := Sample.env) Sample.td_series (PyInt 1) = true.
Proof.
  apply (should_extension_dispatch_left (H := Sample.env)).
  right. right. reflexivity.
Defined.

(** The scalar "category" names an extension dtype and is not dispatched;
    a categorical array is. *)
Lemma should_extension_dispatch_native_left_witness :
  is_extension_array_dtype (Imports := Sample.env) (PyStr "category") = true
  ∧ should_extension_dispatch (H := Sample.env)
      Sample.int_series (PyStr "category") = false
  ∧ should_extension_dispatch (H := Sample.env)
      Sample.int_series (PyArr Sample.cat_array) = true.
Proof.
  split; [reflexivity|]. split.
  - destruct (should_extension_dispatch_native_left (H := Sample.env)
                Sample.int_series (PyStr "category") eq_refl eq_refl eq_refl)
      as [Hscalar _].
    apply Hscalar. reflexivity.
  - destruct (should_extension_dispatch_native_left (H := Sample.env)
                Sample.int_series (PyArr Sample.cat_array) eq_refl eq_refl eq_refl)
      as [_ Harray].
    apply Harray; reflexivity.
Defined.

(** [add] on a timedelta array without a frequency and the integer 5. *)
Lemma dispatch_to_extension_op_errors_witness :
  dispatch_to_extension_op (H := Sample.env)
    Sample.add Sample.td_array (PyInt 5) false
  = Raise {| exc_type := TypeError;
             exc_msg := "incompatible type for a datetime/timedelta operation [add]" |}
  ∧ dispatch_to_extension_op (H := Sample.env)
      Sample.add Sample.td_array (PyInt 5) true
    = Raise Sample.null_freq_error.
Proof.
  split.
  - destruct (dispatch_to_extension_op_errors (H := Sample.env)
                Sample.add Sample.td_array Sample.td_array (PyInt 5) false
                Sample.null_freq_error eq_refl eq_refl) as (Htranslate & _ & _).
    apply Htranslate; reflexivity.
  - destruct (dispatch_to_extension_op_errors (H := Sample.env)
                Sample.add Sample.td_array Sample.td_array (PyInt 5) true
                Sample.null_freq_error eq_refl eq_refl) as (_ & Hkeep & _).
    apply Hkeep; reflexivity.
Defined.

(** A timedelta64 ndarray reaches the operator as a TimedeltaArray, a
    categorical array as itself. *)
Lemma dispatch_to_extension_op_cast_witness :
  dispatch_to_extension_op (H := Sample.env)
    Sample.first_operand Sample.td_ndarray PyNone false
  = Return (PyArr Sample.td_array)
  ∧ dispatch_to_extension_op (H := Sample.env)
      Sample.first_operand Sample.cat_array PyNone false
    = Return (PyArr Sample.cat_array).
Proof.
  split.
  - destruct (dispatch_to_extension_op_cast (H := Sample.env)
                Sample.first_operand Sample.td_ndarray PyNone false) as [Hcast _].
    rewrite Hcast; [reflexivity|].
    split; [reflexivity | left; reflexivity].
  - destruct (dispatch_to_extension_op_cast (H := Sample.env)
                Sample.first_operand Sample.cat_array PyNone false) as [_ Hkeep].
    rewrite Hkeep; [reflexivity|].
    intros [Hnd _]. vm_compute in Hnd. discriminate Hnd.
Defined.

(** C4 as first stated fails: with [self] of class [Base] and a first input
    of the subclass [Sub], the two operands have different concrete types,
    yet [isinstance] holds and "less" is sent to the forward [__lt__] with
    the second input, not to the reflected [__gt__] with the first.  And an
    eligible invocation without positional inputs raises IndexError. *)
Lemma maybe_dispatch_operand_order_cex :
  let run := maybe_dispatch_ufunc_to_dunder_op (H := Sample.env)
               Sample.base_array (Sample.ufunc "less") "__call__" in
  type_of (PyArr Sample.sub_array) ≠ ob_type Sample.base_array
  ∧ run [PyArr Sample.sub_array; PyArr Sample.base_array] ∅
    = Return (PyStr "__lt__")
  ∧ getattr_default (H := Sample.env) Sample.base_array
      (reflected_method_spec "lt") not_implemented (PyArr Sample.sub_array)
    = Return (PyStr "__gt__")
  ∧ run [] ∅ = Raise index_error.
Proof.
  cbv zeta. split; [discriminate|].
  split; [vm_compute; reflexivity|].
  split; vm_compute; reflexivity.
Qed.

(** "less" issued as [5 < array]: the reflected [__gt__] of the array is
    called with 5; "equal" on two arrays of the class of [self]: the forward
    [__eq__] is called with the second. *)
Lemma maybe_dispatch_operand_order_witness :
  maybe_dispatch_ufunc_to_dunder_op (H := Sample.env)
    Sample.base_array (Sample.ufunc "less") "__call__"
    [PyInt 5; PyArr Sample.base_array] ∅
  = Return (PyStr "__gt__")
  ∧ maybe_dispatch_ufunc_to_dunder_op (H := Sample.env)
      Sample.base_array (Sample.ufunc "equal") "__call__"
      [PyArr Sample.base_array; PyArr Sample.base_array] ∅
    = Return (PyStr "__eq__").
Proof.
  split.
  - destruct (maybe_dispatch_operand_order (H := Sample.env)
                Sample.base_array (Sample.ufunc "less") "__call__"
                (PyInt 5) (PyArr Sample.base_array) [] ∅ eq_refl)
      as [_ Hreflected]; [special_member | intros v Hv; discriminate Hv |].
    exact (Hreflected eq_refl).
  - destruct (maybe_dispatch_operand_order (H := Sample.env)
                Sample.base_array (Sample.ufunc "equal") "__call__"
                (PyArr Sample.base_array) (PyArr Sample.base_array) [] ∅ eq_refl)
      as [Hforward _]; [special_member | intros v Hv; discriminate Hv |].
    exact (Hforward eq_refl).
Defined.

(** An [out] buffer, and a reduce-mode request, for the supported "add". *)
Lemma maybe_dispatch_not_handled_witness :
  maybe_dispatch_ufunc_to_dunder_op (H := Sample.env)
    Sample.base_array (Sample.ufunc "add") "__call__"
    [PyArr Sample.base_array; PyInt 1] {[ "out" := PyArr Sample.base_array ]}
  = Return PyNotImplemented
  ∧ maybe_dispatch_ufunc_to_dunder_op (H := Sample.env)
      Sample.base_array (Sample.ufunc "add") "reduce"
      [PyArr Sample.base_array] ∅
    = Return PyNotImplemented.
Proof.
  split.
  - apply (maybe_dispatch_not_handled (H := Sample.env)).
    left. exists (PyArr Sample.base_array). split; [reflexivity | discriminate].
  - apply (maybe_dispatch_not_handled (H := Sample.env)).
    right. discriminate.
Defined.

Lemma maybe_dispatch_divide_witness :
  maybe_dispatch_ufunc_to_dunder_op (H := Sample.env)
    Sample.base_array (Sample.ufunc "divide") "__call__"
    [PyArr Sample.base_array; PyInt 2] ∅
  = Return PyNotImplemented.
Proof.
  apply (maybe_dispatch_divide (H := Sample.env)). reflexivity.
Defined.

(** C10 as first stated fails: an eligible call with the single input 5,
    which is not an instance of [type(self)], reads no second input and
    returns [NotImplemented] ([Base] has no [__radd__]) instead of raising
    IndexError. *)
Lemma maybe_dispatch_inputs_read_cex :
  length [PyInt 5] < 2
  ∧ maybe_dispatch_ufunc_to_dunder_op (H := Sample.env)
      Sample.base_array (Sample.ufunc "add") "__call__" [PyInt 5] ∅
    = Return PyNotImplemented
  ∧ maybe_dispatch_ufunc_to_dunder_op (H := Sample.env)
      Sample.base_array (Sample.ufunc "add") "__call__" [PyInt 5] ∅
    ≠ Raise index_error.
Proof.
  split; [cbn; lia|].
  split; [vm_compute; reflexivity | vm_compute; discriminate].
Qed.

Lemma maybe_dispatch_inputs_read_witness :
  maybe_dispatch_ufunc_to_dunder_op (H := Sample.env)
    Sample.base_array (Sample.ufunc "add") "__call__" [] ∅
  = Raise index_error
  ∧ maybe_dispatch_ufunc_to_dunder_op (H := Sample.env)
      Sample.base_array (Sample.ufunc "add") "__call__"
      [PyArr Sample.sub_array] ∅
    = Raise index_error
  ∧ maybe_dispatch_ufunc_to_dunder_op (H := Sample.env)
      Sample.base_array (Sample.ufunc "add") "__call__" [PyInt 5] ∅
    = Return PyNotImplemented.
Proof.
  destruct (maybe_dispatch_inputs_read (H := Sample.env)
              Sample.base_array (Sample.ufunc "add") "__call__" ∅ eq_refl)
    as (Hnone & Hone & Hreflected & _);
    [special_member | intros v Hv; discriminate Hv |].
  split; [exact Hnone|].
  split; [apply Hone; reflexivity|].
  rewrite Hreflected; reflexivity.
Defined.

(** ** Further properties of the predicates *)

Section MorePredicateProperties.
Context `{Imports}.

Lemma first_dtype_column (df : DataFrame) (d : Dtype) :
  dtypes df !! 0 = Some d → truth (length (columns df)) = true.
Proof.
  unfold dtypes, columns. destruct (_data df) as [|c rest]; [discriminate|].
  reflexivity.
Qed.

(** X2: for two frames that are not mixed and have at least one column each,
    the answer is read off the dtypes of the two first columns alone: true
    exactly for timedelta64 against integer in either order, or datetime64 on
    the left against object on the right.  The operator and the other
    columns play no part. *)
Theorem should_series_dispatch_first_dtypes (left right : DataFrame)
    (op : Callable) (ldtype rdtype : Dtype) :
  _is_mixed_type left = false →
  _is_mixed_type right = false →
  dtypes left !! 0 = Some ldtype →
  dtypes right !! 0 = Some rdtype →
  should_series_dispatch left right op
  = Return ((is_timedelta64_dtype (PyDtype ldtype) && is_integer_dtype (PyDtype rdtype))
            || (is_timedelta64_dtype (PyDtype rdtype) && is_integer_dtype (PyDtype ldtype))
            || (is_datetime64_dtype (PyDtype ldtype) && is_object_dtype (PyDtype rdtype))).
Proof.
  intros Hl Hr Hld Hrd. unfold should_series_dispatch.
  rewrite Hl, Hr, (first_dtype_column _ _ Hld), (first_dtype_column _ _ Hrd).
  cbn [orb negb]. unfold getitem. rewrite Hld, Hrd. cbn [mbind result_bind].
  destruct (is_timedelta64_dtype (PyDtype ldtype) && is_integer_dtype (PyDtype rdtype)
            || is_timedelta64_dtype (PyDtype rdtype) && is_integer_dtype (PyDtype ldtype));
    [reflexivity|].
  cbn [orb].
  destruct (is_datetime64_dtype (PyDtype ldtype) && is_object_dtype (PyDtype rdtype));
    reflexivity.
Qed.

(** X3: the complete decision of [should_extension_dispatch]: it answers
    true exactly when the left dtype is extension, datetime64 or timedelta64,
    or the right operand is a non-scalar of extension dtype.  Two native
    operands are never dispatched. *)
Theorem should_extension_dispatch_iff (left : ArrayLike) (right : PyObj) :
  should_extension_dispatch left right = true
  ↔ (is_extension_array_dtype (PyDtype (dtype left)) = true
     ∨ is_datetime64_dtype (PyDtype (dtype left)) = true
     ∨ is_timedelta64_dtype (PyDtype (dtype left)) = true)
    ∨ (is_scalar right = false ∧ is_extension_array_dtype right = true).
Proof.
  unfold should_extension_dispatch.
  destruct (is_extension_array_dtype (PyDtype (dtype left)));
    [cbn; intuition congruence|].
  destruct (is_datetime64_dtype (PyDtype (dtype left)));
    [cbn; intuition congruence|].
  destruct (is_timedelta64_dtype (PyDtype (dtype left)));
    [cbn; intuition congruence|].
  destruct (is_scalar right), (is_extension_array_dtype right);
    cbn; intuition congruence.
Qed.

End MorePredicateProperties.

Lemma should_series_dispatch_first_dtypes_witness :
  should_series_dispatch (H := Sample.env)
    {| _is_mixed_type := false; _data := [("t", Sample.timedelta64)] |}
    Sample.int_frame Sample.add
  = Return true.
Proof.
  apply (should_series_dispatch_first_dtypes (H := Sample.env)
           {| _is_mixed_type := false; _data := [("t", Sample.timedelta64)] |}
           Sample.int_frame Sample.add Sample.timedelta64 Sample.int64);
    reflexivity.
Defined.

(** ** Further properties of the extension-operator bridge *)

Section MoreExtensionOpProperties.
Context `{Imports}.

(** X4: with [keep_null_freq] set the bridge adds nothing to the operator:
    the call returns or raises exactly what [op] does on the operand that is
    passed to it. *)
Theorem dispatch_to_extension_op_keep (op : Callable) (left : ArrayLike)
    (right : PyObj) :
  dispatch_to_extension_op op left right true
  = cast_temporal_ndarray left ≫= λ passed, __call__ op passed right.
Proof.
  unfold dispatch_to_extension_op.
  destruct (cast_temporal_ndarray left) as [passed|e]; [|reflexivity].
  cbn [mbind result_bind]. unfold try_op.
  destruct (__call__ op passed right) as [v|e]; [reflexivity|].
  destruct (issubclass (exc_type e) NullFrequencyError); reflexivity.
Qed.

(** X5: [keep_null_freq] matters for null-frequency errors only: when [op]
    returns, or raises an exception that is not a NullFrequencyError, the
    bridge hands on the outcome of [op] for either value of the flag. *)
Theorem dispatch_to_extension_op_flag_irrelevant (op : Callable)
    (left passed : ArrayLike) (right : PyObj) (keep_null_freq : bool) :
  cast_temporal_ndarray left = Return passed →
  (∀ e, __call__ op passed right = Raise e →
        issubclass (exc_type e) NullFrequencyError = false) →
  dispatch_to_extension_op op left right keep_null_freq
  = __call__ op passed right.
Proof.
  intros Hcast Hother. unfold dispatch_to_extension_op. rewrite Hcast.
  cbn [mbind result_bind]. unfold try_op.
  destruct (__call__ op passed right) as [v|e] eqn:Hcall; [reflexivity|].
  by rewrite (Hother e).
Qed.

(** X6: the cast of lines 116-120 stands outside the [try] statement: when
    [array] raises on a datetime64 or timedelta64 ndarray, that exception
    leaves the bridge as it is, a NullFrequencyError included, and the result
    does not depend on the operator. *)
Theorem dispatch_to_extension_op_cast_raises (op : Callable) (left : ArrayLike)
    (right : PyObj) (keep_null_freq : bool) (e : PyErr) :
  isinstance (PyArr left) ndarray = true →
  kind (dtype left) = "m"%char ∨ kind (dtype left) = "M"%char →
  array left = Raise e →
  dispatch_to_extension_op op left right keep_null_freq = Raise e.
Proof.
  intros Hnd Hkind Harray.
  unfold dispatch_to_extension_op, cast_temporal_ndarray.
  apply char_in_mM in Hkind. by rewrite Hkind, Hnd, Harray.
Qed.

(** X7: for an operator that carries a [__name__], as every [Callable]
    here does (a callable without one is not covered), an exception that
    leaves the bridge was raised by [array], or by [op], or is the TypeError
    that stands for a NullFrequencyError of [op] when [keep_null_freq] is
    false. *)
Theorem dispatch_to_extension_op_raise_origin (op : Callable) (left : ArrayLike)
    (right : PyObj) (keep_null_freq : bool) (e : PyErr) :
  dispatch_to_extension_op op left right keep_null_freq = Raise e →
  cast_temporal_ndarray left = Raise e
  ∨ ∃ passed, cast_temporal_ndarray left = Return passed
      ∧ (__call__ op passed right = Raise e
         ∨ ∃ e0, __call__ op passed right = Raise e0
             ∧ issubclass (exc_type e0) NullFrequencyError = true
             ∧ keep_null_freq = false
             ∧ e = {| exc_type := TypeError;
                      exc_msg := "incompatible type for a datetime/timedelta operation ["
                                 ++ __name__ op ++ "]" |}).
Proof.
  unfold dispatch_to_extension_op.
  destruct (cast_temporal_ndarray left) as [passed|e0];
    cbn [mbind result_bind]; intros Hraise;
    [|left; by injection Hraise as ->].
  right. exists passed. split; [reflexivity|].
  unfold try_op in Hraise.
  destruct (__call__ op passed right) as [v|e0]; [discriminate Hraise|].
  destruct (issubclass (exc_type e0) NullFrequencyError) eqn:Hnull;
    [|left; exact Hraise].
  destruct keep_null_freq; [left; exact Hraise|].
  right. exists e0. injection Hraise as <-.
  split; [reflexivity|]. split; [exact Hnull|]. split; reflexivity.
Qed.

End MoreExtensionOpProperties.

(** A categorical array and an operator that returns its left operand. *)
Lemma dispatch_to_extension_op_flag_irrelevant_witness :
  dispatch_to_extension_op (H := Sample.env)
    Sample.first_operand Sample.cat_array (PyInt 1) false
  = Return (PyArr Sample.cat_array)
  ∧ dispatch_to_extension_op (H := Sample.env)
      Sample.first_operand Sample.cat_array (PyInt 1) true
    = Return (PyArr Sample.cat_array).
Proof.
  split;
    apply (dispatch_to_extension_op_flag_irrelevant (H := Sample.env)
             Sample.first_operand Sample.cat_array Sample.cat_array (PyInt 1));
    first [reflexivity | intros e He; discriminate He].
Defined.

(** A timedelta64 ndarray whose cast fails with a NullFrequencyError: no
    TypeError takes its place. *)
Lemma dispatch_to_extension_op_cast_raises_witness :
  dispatch_to_extension_op (H := failing_cast_env)
    Sample.add Sample.td_ndarray (PyInt 5) false
  = Raise Sample.null_freq_error.
Proof.
  apply (dispatch_to_extension_op_cast_raises (H := failing_cast_env));
    [reflexivity | left; reflexivity | reflexivity].
Defined.

Lemma dispatch_to_extension_op_raise_origin_witness :
  ∃ passed, cast_temporal_ndarray (H := Sample.env) Sample.td_array = Return passed
    ∧ __call__ Sample.add passed (PyInt 5) = Raise Sample.null_freq_error.
Proof.
  destruct (dispatch_to_extension_op_raise_origin (H := Sample.env)
              Sample.add Sample.td_array (PyInt 5) true Sample.null_freq_error
              eq_refl) as [Hcast | (passed & Hcast & [Hop | (e0 & _ & _ & Hkeep & _)])].
  - discriminate Hcast.
  - exists passed. split; assumption.
  - discriminate Hkeep.
Defined.

(** ** Further properties of the ufunc bridge *)

(** Case analysis on a name against one key of a table of string literals:
    either the name is the key and the goal is settled by [tac], or the key
    is skipped in the lookup. *)
Local Ltac table_case name tac :=
  match goal with
  | |- context [<[?k := _]> _ !! name] =>
      destruct (decide (name = k)) as [->|?];
      [tac | rewrite (lookup_insert_ne _ k name) by congruence]
  | |- context [{[?k := _]} !! name] =>
      destruct (decide (name = k)) as [->|?];
      [tac | rewrite (lookup_singleton_ne k name) by congruence]
  end.

(** No ufunc name resolves to "remainder": the name is itself an alias of
    "mod". *)
Lemma remainder_never_resolved (name : string) :
  dict_get aliases name name ≠ "remainder".
Proof.
  unfold dict_get, aliases.
  repeat table_case name ltac:(vm_compute; discriminate).
  congruence.
Qed.

(** For a supported operator other than "remainder", neither the forward
    nor the reflected method name is "__remainder__" or "__rremainder__". *)
Lemma method_names_not_remainder (op_name : string) :
  op_name ∈ special →
  op_name ≠ "remainder" →
  "__" ++ op_name ++ "__" ≠ "__remainder__"
  ∧ "__" ++ op_name ++ "__" ≠ "__rremainder__"
  ∧ dict_get flipped op_name ("__r" ++ op_name ++ "__") ≠ "__remainder__"
  ∧ dict_get flipped op_name ("__r" ++ op_name ++ "__") ≠ "__rremainder__".
Proof.
  intros Hin Hne. unfold special in Hin.
  rewrite !elem_of_union, !elem_of_singleton in Hin.
  repeat destruct Hin as [Hin|Hin]; subst op_name; try congruence;
    vm_compute; repeat split; discriminate.
Qed.

(** X8: the methods "__remainder__" and "__rremainder__" are never looked
    up: no ufunc name resolves to "remainder", which is itself an alias of
    "mod", so the result of the bridge is the same in two environments whose
    attribute lookup differs at these two names only, for every invocation. *)
Theorem remainder_methods_never_looked_up (env1 env2 : Imports)
    (self : ArrayLike) (ufunc : Callable) (method : string)
    (inputs : list PyObj) (kwargs : gmap string PyObj) :
  (∀ a name, name ≠ "__remainder__" → name ≠ "__rremainder__" →
     getattr (Imports := env1) a name = getattr (Imports := env2) a name) →
  maybe_dispatch_ufunc_to_dunder_op (H := env1) self ufunc method inputs kwargs
  = maybe_dispatch_ufunc_to_dunder_op (H := env2) self ufunc method inputs kwargs.
Proof.
  intros Hagree. unfold maybe_dispatch_ufunc_to_dunder_op. cbv zeta.
  destruct (bool_decide (method = "__call__")); [|reflexivity].
  destruct (bool_decide (dict_get aliases (__name__ ufunc) (__name__ ufunc) ∈ special))
    eqn:Hin; [|reflexivity].
  apply bool_decide_eq_true in Hin.
  destruct (method_names_not_remainder _ Hin (remainder_never_resolved _))
    as (Hf1 & Hf2 & Hr1 & Hr2).
  destruct (is_None (dict_get kwargs "out" PyNone)); [|reflexivity].
  cbn [andb].
  destruct (getitem inputs 0) as [x0|e]; [|reflexivity].
  cbn [mbind result_bind].
  destruct (isinstance x0 (ob_type self)).
  - destruct (getitem inputs 1) as [x1|e]; [|reflexivity].
    cbn [mbind result_bind]. unfold getattr_default.
    by rewrite (Hagree self _ Hf1 Hf2).
  - unfold getattr_default. by rewrite (Hagree self _ Hr1 Hr2).
Qed.

(** X9: the ufunc names that pass the name test of line 215 are the 27 names
    of [dispatched_ufunc_names] and no others; for any other name the call
    yields [NotImplemented], whatever the method, inputs and kwargs. *)
Theorem dispatched_ufunc_names_spec (name : string) :
  (dict_get aliases name name ∈ special ↔ name ∈ dispatched_ufunc_names)
  ∧ (name ∉ dispatched_ufunc_names →
     ∀ `{Imports} self ufunc method inputs kwargs,
       __name__ ufunc = name →
       maybe_dispatch_ufunc_to_dunder_op self ufunc method inputs kwargs
       = Return PyNotImplemented).
Proof.
  assert (Hiff : dict_get aliases name name ∈ special
                 ↔ name ∈ dispatched_ufunc_names).
  { unfold dict_get, aliases.
    repeat table_case name ltac:(special_member).
    unfold special, dispatched_ufunc_names.
    rewrite !elem_of_union, !elem_of_singleton, !elem_of_cons, elem_of_nil.
    intuition congruence. }
  split; [exact Hiff|].
  intros Hout Himports self ufunc method inputs kwargs Hname.
  unfold maybe_dispatch_ufunc_to_dunder_op. cbv zeta. rewrite Hname.
  rewrite (bool_decide_false (dict_get aliases name name ∈ special))
    by (by rewrite Hiff).
  by rewrite andb_false_r.
Qed.

(** X10: the swap table is symmetric: every entry sends an operator [x] to
    the method "__y__" of an operator [y] that the table sends back to
    "__x__".  Reflecting twice gives the operator back. *)
Theorem flipped_symmetric (x m : string) :
  flipped !! x = Some m →
  ∃ y, m = "__" ++ y ++ "__" ∧ flipped !! y = Some ("__" ++ x ++ "__").
Proof.
  unfold flipped.
  table_case x ltac:(intros [= <-]; by exists "gt").
  table_case x ltac:(intros [= <-]; by exists "ge").
  table_case x ltac:(intros [= <-]; by exists "lt").
  table_case x ltac:(intros [= <-]; by exists "le").
  table_case x ltac:(intros [= <-]; by exists "eq").
  table_case x ltac:(intros [= <-]; by exists "ne").
  discriminate.
Qed.

Section MoreUfuncBridgeProperties.
Context `{Imports}.

(** X11: no keyword argument other than [out] is looked at: adding or
    changing any other key of [kwargs] (where, casting, dtype, ...) leaves the
    result as it was; such arguments are not handed to the operator method. *)
Theorem maybe_dispatch_other_kwargs_ignored (self : ArrayLike) (ufunc : Callable)
    (method : string) (inputs : list PyObj) (kwargs : gmap string PyObj)
    (key : string) (value : PyObj) :
  key ≠ "out" →
  maybe_dispatch_ufunc_to_dunder_op self ufunc method inputs (<[key := value]> kwargs)
  = maybe_dispatch_ufunc_to_dunder_op self ufunc method inputs kwargs.
Proof.
  intros Hkey. unfold maybe_dispatch_ufunc_to_dunder_op. cbv zeta.
  replace (dict_get (<[key := value]> kwargs) "out" PyNone)
    with (dict_get kwargs "out" PyNone); [reflexivity|].
  unfold dict_get. by rewrite lookup_insert_ne.
Qed.

(** X12: an explicit [out=None] counts as no [out] at all. *)
Theorem maybe_dispatch_out_None (self : ArrayLike) (ufunc : Callable)
    (method : string) (inputs : list PyObj) (kwargs : gmap string PyObj) :
  maybe_dispatch_ufunc_to_dunder_op self ufunc method inputs (<["out" := PyNone]> kwargs)
  = maybe_dispatch_ufunc_to_dunder_op self ufunc method inputs (delete "out" kwargs).
Proof.
  unfold maybe_dispatch_ufunc_to_dunder_op. cbv zeta.
  replace (dict_get (<["out" := PyNone]> kwargs) "out" PyNone) with PyNone
    by (unfold dict_get; by rewrite lookup_insert_eq).
  replace (dict_get (delete "out" kwargs) "out" PyNone) with PyNone
    by (unfold dict_get; by rewrite lookup_delete_eq).
  reflexivity.
Qed.

(** X13: with two positional inputs or more the function raises nothing of
    its own: the outcome is [NotImplemented], or what one method of [self]
    returns or raises on the first or on the second input. *)
Theorem maybe_dispatch_two_inputs_outcome (self : ArrayLike) (ufunc : Callable)
    (method : string) (x0 x1 : PyObj) (rest : list PyObj)
    (kwargs : gmap string PyObj) :
  let r := maybe_dispatch_ufunc_to_dunder_op self ufunc method
             (x0 :: x1 :: rest) kwargs in
  r = Return PyNotImplemented
  ∨ ∃ name m, getattr self name = Some m ∧ (r = m x0 ∨ r = m x1).
Proof.
  cbv zeta. unfold maybe_dispatch_ufunc_to_dunder_op. cbv zeta.
  destruct (_ && _ && _); [|by left].
  rewrite getitem_head. cbn [mbind result_bind].
  destruct (isinstance x0 (ob_type self)).
  - unfold getattr_default.
    destruct (getattr self ("__" ++ _ ++ "__")) as [m|] eqn:Hattr; [|by left].
    right. eexists _, m. split; [exact Hattr|]. by right.
  - unfold getattr_default.
    destruct (getattr self (dict_get flipped _ _)) as [m|] eqn:Hattr; [|by left].
    right. eexists _, m. split; [exact Hattr|]. by left.
Qed.

End MoreUfuncBridgeProperties.

(** "sqrt" is not among the dispatched names. *)
Lemma dispatched_ufunc_names_spec_witness :
  maybe_dispatch_ufunc_to_dunder_op (H := Sample.env)
    Sample.base_array (Sample.ufunc "sqrt") "__call__"
    [PyArr Sample.base_array] ∅
  = Return PyNotImplemented.
Proof.
  destruct (dispatched_ufunc_names_spec "sqrt") as [_ Hother].
  apply Hother; [special_member | reflexivity].
Defined.

(** The entry of "lt" is "__gt__", and the entry of "gt" is "__lt__". *)
Lemma flipped_symmetric_witness :
  ∃ y, "__gt__" = "__" ++ y ++ "__" ∧ flipped !! y = Some ("__" ++ "lt" ++ "__").
Proof.
  apply (flipped_symmetric "lt" "__gt__"). vm_compute. reflexivity.
Defined.

(** A [where] argument beside the inputs of "add". *)
Lemma maybe_dispatch_other_kwargs_ignored_witness :
  maybe_dispatch_ufunc_to_dunder_op (H := Sample.env)
    Sample.base_array (Sample.ufunc "add") "__call__"
    [PyArr Sample.base_array; PyInt 1] (<["where" := PyInt 1]> ∅)
  = maybe_dispatch_ufunc_to_dunder_op (H := Sample.env)
      Sample.base_array (Sample.ufunc "add") "__call__"
      [PyArr Sample.base_array; PyInt 1] ∅.
Proof.
  apply (maybe_dispatch_other_kwargs_ignored (H := Sample.env)).
  discriminate.
Defined.

(** "remainder" on arrays with and without a "__remainder__" method: the
    forward "__mod__" is looked up in both, and is missing in both. *)
Lemma remainder_methods_never_looked_up_witness :
  maybe_dispatch_ufunc_to_dunder_op (H := Sample.env)
    Sample.base_array (Sample.ufunc "remainder") "__call__"
    [PyArr Sample.base_array; PyInt 2] ∅
  = maybe_dispatch_ufunc_to_dunder_op (H := remainder_env)
      Sample.base_array (Sample.ufunc "remainder") "__call__"
      [PyArr Sample.base_array; PyInt 2] ∅.
Proof.
  apply (remainder_methods_never_looked_up Sample.env remainder_env).
  intros a name Hfwd Hrefl. cbn [getattr remainder_env].
  rewrite bool_decide_false; [reflexivity|].
  rewrite !elem_of_cons, elem_of_nil. tauto.
Defined.
